(** * Registry credential resolution of watchtower ([container/trust.go])

    A shallow embedding of the Go package [container]: the chain of
    authentication backends ([firstValidAuth]), the environment backend
    ([authFromEnv]), the Docker-configuration backend
    ([authFromDockerConfig]), the server-address helper
    ([ParseServerAddress]), the store selection ([CredentialsStore]) and
    the two encoders ([EncodeAuth], [EncodedAuth]).

    Go values are modelled as follows.
    - A pointer [*types.AuthConfig] is an [option]; [nil] is [None] and a
      dereference of [nil] is a panic.
    - An [error] is an [option error]; [nil] is [None].
    - A function with results [(T, error)] returns the pair: Go returns
      both components, and the code below reads both.
    - Calls that leave the process (environment, file system, credential
      helper, logger, encoder) are answered by a [World] and recorded, in
      program order, in a trace of [event]s. *)

From Stdlib Require Import Ascii String.
From stdpp Require Import base decidable option list gmap strings.

(** ** Imported Go types *)

(** Go's [error] interface; only identity of error values matters here. *)
Definition error : Type := string.

Module types.
(** [types.AuthConfig] of the Docker API: a struct of strings, compared
    with [==] against its zero value by the configuration backend. *)
Record AuthConfig : Type := mkAuthConfig {
  Username : string;
  Password : string;
  Auth : string;
  Email : string;
  ServerAddress : string;
  IdentityToken : string;
  RegistryToken : string
}.

(** The composite literal [types.AuthConfig{}]. *)
Definition zero : AuthConfig := mkAuthConfig "" "" "" "" "" "" "".

#[global] Instance AuthConfig_eq_dec : EqDecision AuthConfig.
Proof. solve_decision. Defined.
End types.

Module configfile.
(** The fields of [configfile.ConfigFile] that this package reads, and
    the section of stored credentials that the file store reads. *)
Record ConfigFile : Type := mkConfigFile {
  AuthConfigs : gmap string types.AuthConfig;
  CredentialsStore : string;
  CredentialHelpers : gmap string string;
  Filename : string
}.
End configfile.

Module credentials.
(** The two implementations of [credentials.Store] that the package
    constructs, with the arguments of [NewNativeStore] and
    [NewFileStore]. *)
Inductive Store : Type :=
| NativeStore (file : configfile.ConfigFile) (helper : string)
| FileStore (file : configfile.ConfigFile).
End credentials.

(** ** Effects *)

(** What a call does to the world outside the package. *)
Inductive event : Type :=
| Getenv (key : string)
| Load (configDir : string)
| StoreGet (store : credentials.Store) (server : string)
| EncodeAuthToBase64 (auth : types.AuthConfig)
| Errorf (format : string) (err : option error)
| Debugf (format : string) (auth : option types.AuthConfig) (ref : string)
| Debug (msg : string).

Definition trace : Type := list event.

(** A Go call either returns or panics. *)
Inductive outcome (A : Type) : Type :=
| Ret (a : A)
| Panic (msg : string).
Arguments Ret {A} a.
Arguments Panic {A} msg.

(** Computations: the trace so far goes in, the outcome and the extended
    trace come out. *)
Definition M (A : Type) : Type := trace -> outcome A * trace.

Definition ret {A : Type} (a : A) : M A := fun t => (Ret a, t).

Definition bind {A B : Type} (m : M A) (k : A -> M B) : M B :=
  fun t =>
    match m t with
    | (Ret a, t') => k a t'
    | (Panic msg, t') => (Panic msg, t')
    end.

Definition emit (e : event) : M unit := fun t => (Ret tt, t ++ [e]).

Definition panic {A : Type} (msg : string) : M A := fun t => (Panic msg, t).

Declare Scope go_scope.
Delimit Scope go_scope with go.
Notation "x <- m ;; k" := (bind m (fun x => k))
  (at level 100, m at next level, right associativity) : go_scope.
Notation "m ;;; k" := (bind m (fun _ : unit => k))
  (at level 100, right associativity) : go_scope.
Local Open Scope go_scope.

(** [*p]: dereferencing [nil] panics. *)
Definition deref {A : Type} (p : option A) : M A :=
  match p with
  | Some a => ret a
  | None => panic "invalid memory address or nil pointer dereference"
  end.

(** [xs[i]]: an index out of range panics. *)
Definition index {A : Type} (xs : list A) (i : nat) : M A :=
  match xs !! i with
  | Some a => ret a
  | None => panic "index out of range"
  end.

(** [p != nil] for pointers and errors. *)
Definition nonnil {A : Type} (p : option A) : bool :=
  match p with Some _ => true | None => false end.

(** ** The collaborators outside the package *)

(** The answers of the process environment and of the imported Docker
    packages: [os.Getenv], [reference.Parse], [cliconfig.Load],
    [credentials.Store.Get] and [command.EncodeAuthToBase64]. *)
Record World : Type := mkWorld {
  environ : gmap string string;
  reference_Parse : string -> string * string * option error;
  cliconfig_Load : string -> option configfile.ConfigFile * option error;
  store_Get : credentials.Store -> string -> types.AuthConfig * option error;
  command_EncodeAuthToBase64 : types.AuthConfig -> string * option error
}.

(** [strings.Split(s, sep)] for a separator of one byte, the only use the
    package makes of it: the substrings between the separators, at least
    one of them. *)
Fixpoint strings_Split (s : string) (sep : ascii) : list string :=
  match s with
  | EmptyString => [EmptyString]
  | String c s' =>
      if decide (c = sep) then EmptyString :: strings_Split s' sep
      else match strings_Split s' sep with
           | [] => [String c EmptyString]
           | p :: ps => String c p :: ps
           end
  end.

Section container.

Variable w : World.

(** [os.Getenv]: the value of the variable, empty when it is unset. *)
Definition getenv (key : string) : string := default "" (environ w !! key).

Definition os_Getenv (key : string) : M string :=
  emit (Getenv key) ;;; ret (getenv key).

Definition cliconfig_Load_call (configDir : string)
  : M (option configfile.ConfigFile * option error) :=
  emit (Load configDir) ;;; ret (cliconfig_Load w configDir).

Definition Store_Get (store : credentials.Store) (server : string)
  : M (types.AuthConfig * option error) :=
  emit (StoreGet store server) ;;; ret (store_Get w store server).

Definition command_EncodeAuthToBase64_call (auth : types.AuthConfig)
  : M (string * option error) :=
  emit (EncodeAuthToBase64 auth) ;;; ret (command_EncodeAuthToBase64 w auth).

Definition log_Errorf (format : string) (err : option error) : M unit :=
  emit (Errorf format err).

Definition log_Debugf (format : string) (auth : option types.AuthConfig)
    (ref : string) : M unit :=
  emit (Debugf format auth ref).

Definition log_Debug (msg : string) : M unit := emit (Debug msg).

(** ** The package *)

(** The function type [authBackend]: from a repository string to a
    pointer to [types.AuthConfig] and an [error]. *)
Definition authBackend : Type :=
  string -> M (option types.AuthConfig * option error).

(** [firstValidAuth]: the [range] loop over the backends. *)
Fixpoint firstValidAuth (repo : string) (backends : list authBackend)
  : M (option types.AuthConfig * option error) :=
  match backends with
  | [] => ret (None, None)
  | backend :: rest =>
      r <- backend repo ;;
      let '(auth, err) := r in
      if nonnil auth || nonnil err then ret (auth, err)
      else firstValidAuth repo rest
  end.

(** [authFromEnv()] *)
Definition authFromEnv : authBackend := fun _ =>
  username <- os_Getenv "REPO_USER" ;;
  password <- os_Getenv "REPO_PASS" ;;
  if decide (username ≠ "" ∧ password ≠ "") then
    let auth := types.mkAuthConfig username password "" "" "" "" "" in
    ret (Some auth, None)
  else ret (None, None).

(** [ParseServerAddress] *)
Definition ParseServerAddress (ref : string) : M (string * option error) :=
  let '(repository, _, err) := reference_Parse w ref in
  if nonnil err then ret (ref, err)
  else
    let parts := strings_Split repository "/"%char in
    part <- index parts 0 ;;
    ret (part, None).

(** [CredentialsStore] *)
Definition CredentialsStore (configFile : configfile.ConfigFile)
    (server : string) : credentials.Store :=
  if decide (configfile.CredentialsStore configFile ≠ "") then
    credentials.NativeStore configFile (configfile.CredentialsStore configFile)
  else
    match configfile.CredentialHelpers configFile !! server with
    | Some helper => credentials.NativeStore configFile helper
    | None => credentials.FileStore configFile
    end.

(** [authFromDockerConfig()].  The [err] of [ParseServerAddress] is
    assigned again by the [:=] of the [cliconfig.Load] line, and the
    [err] of [credStore.Get] is not read before the returns. *)
Definition authFromDockerConfig : authBackend := fun ref =>
  r <- ParseServerAddress ref ;;
  let '(server, _) := r in
  configDir <- os_Getenv "DOCKER_CONFIG" ;;
  let configDir := if decide (configDir = "") then "/" else configDir in
  r <- cliconfig_Load_call configDir ;;
  let '(configFile, err) := r in
  if nonnil err then
    log_Errorf "Unable to find default config file %s" err ;;;
    ret (None, err)
  else
    file <- deref configFile ;;
    let credStore := CredentialsStore file server in
    r <- Store_Get credStore server ;;
    let '(auth, _) := r in
    if decide (auth = types.zero) then ret (None, None)
    else ret (Some auth, None).

(** [EncodeAuth] *)
Definition EncodeAuth (auth : option types.AuthConfig)
  : M (string * option error) :=
  a <- deref auth ;;
  command_EncodeAuthToBase64_call a.

(** [EncodedAuth] *)
Definition EncodedAuth (ref : string) : M (string * option error) :=
  r <- firstValidAuth ref [authFromEnv; authFromDockerConfig] ;;
  let '(auth, err) := r in
  if nonnil err then
    log_Debugf "Loaded auth credentials %s for %s" auth ref ;;;
    EncodeAuth auth
  else ret ("", err).

(** [DefaultAuthHandler] *)
Definition DefaultAuthHandler : M (string * option error) :=
  log_Debug
    "Authentication request was rejected. Trying again without authentication" ;;;
  ret ("", None).

(** The directory that [authFromDockerConfig] hands to [cliconfig.Load]. *)
Definition configDirOf : string :=
  if decide (getenv "DOCKER_CONFIG" = "") then "/" else getenv "DOCKER_CONFIG".

End container.

(** ** Vocabulary of the statements *)

(** The server that [authFromDockerConfig] looks up for a reference: the
    raw reference when [reference.Parse] fails, else the part of the
    repository before its first slash. *)
Definition serverOf (w : World) (ref : string) : string :=
  match reference_Parse w ref with
  | (_, _, Some _) => ref
  | (repository, _, None) =>
      match strings_Split repository "/"%char with
      | part :: _ => part
      | [] => ""
      end
  end.

(** A pointer to the credential, [nil] for the zero value: the last three
    lines of [authFromDockerConfig]. *)
Definition nonzeroAuth (auth : types.AuthConfig)
  : option types.AuthConfig * option error :=
  if decide (auth = types.zero) then (None, None) else (Some auth, None).

(** The credential that [authFromEnv] builds from the two variables. *)
Definition envAuth (w : World) : types.AuthConfig :=
  types.mkAuthConfig (getenv w "REPO_USER") (getenv w "REPO_PASS")
    "" "" "" "" "".

(** Both variables are set and not empty. *)
Definition envSet (w : World) : Prop :=
  getenv w "REPO_USER" ≠ "" ∧ getenv w "REPO_PASS" ≠ "".

(** What the two backends leave in the trace. *)
Definition envEvents : trace := [Getenv "REPO_USER"; Getenv "REPO_PASS"].

Definition loadEvents (w : World) : trace :=
  [Getenv "DOCKER_CONFIG"; Load (configDirOf w)].

(** Running the backends of a list in order from trace [t], every one of
    them returns [(nil, nil)], and the trace is then [t']. *)
Inductive all_absent (repo : string)
  : list authBackend -> trace -> trace -> Prop :=
| all_absent_nil (t : trace) : all_absent repo [] t t
| all_absent_cons (b : authBackend) (bs : list authBackend) (t t1 t2 : trace) :
    b repo t = (Ret (None, None), t1) ->
    all_absent repo bs t1 t2 ->
    all_absent repo (b :: bs) t t2.

(** ** Concrete worlds *)

Module Samples.

(** A stand-in for [reference.Parse]: the empty reference is rejected,
    any other is taken as a repository without tag. *)
Definition parse (ref : string) : string * string * option error :=
  if decide (ref = "") then
    ("", "", Some "repository name must have at least one component")
  else (ref, "", None).

(** A stand-in for the stores: the file store answers from the
    [AuthConfigs] of its file and the zero value for a server it does not
    list; no credential helper is installed, so a native store fails. *)
Definition get (store : credentials.Store) (server : string)
  : types.AuthConfig * option error :=
  match store with
  | credentials.FileStore file =>
      (default types.zero (configfile.AuthConfigs file !! server), None)
  | credentials.NativeStore _ helper =>
      (types.zero, Some "error getting credentials: helper not found")
  end.

Definition alice : types.AuthConfig :=
  types.mkAuthConfig "a" "b" "" "" "" "" "".

(** A stand-in for the encoder, right on [alice]: the URL-safe base64 of
    the JSON object with username a and password b. *)
Definition encode (auth : types.AuthConfig) : string * option error :=
  if decide (auth = alice) then
    ("eyJ1c2VybmFtZSI6ImEiLCJwYXNzd29yZCI6ImIifQ==", None)
  else ("", Some "json: unsupported value").

Definition world (env : gmap string string)
    (load : option configfile.ConfigFile * option error) : World :=
  mkWorld env parse (fun _ => load) get encode.

Definition emptyConfig : configfile.ConfigFile :=
  configfile.mkConfigFile ∅ "" ∅ "/config.json".

(** The file lists a password for [registry.example.com]. *)
Definition fileConfig : configfile.ConfigFile :=
  configfile.mkConfigFile {[ "registry.example.com" := alice ]} "" ∅
    "/config.json".

(** The file names a global credential helper, and another helper for
    one server. *)
Definition helperConfig : configfile.ConfigFile :=
  configfile.mkConfigFile ∅ "osxkeychain"
    {[ "registry.example.com" := "pass" ]} "/config.json".

(** The file names a helper for one server only. *)
Definition perServerConfig : configfile.ConfigFile :=
  configfile.mkConfigFile ∅ "" {[ "registry.example.com" := "pass" ]}
    "/config.json".

Definition envAlice : gmap string string :=
  {[ "REPO_USER" := "a"; "REPO_PASS" := "b" ]}.

(** Only the user is given. *)
Definition envUserOnly : gmap string string := {[ "REPO_USER" := "a" ]}.

Definition loadError : error := "/config.json - unexpected end of JSON input".

(** Credentials in the environment, an unreadable configuration file. *)
Definition worldEnv : World := world envAlice (Some emptyConfig, Some loadError).

(** Nothing in the environment, an unreadable configuration file. *)
Definition worldLoadFails : World := world ∅ (Some emptyConfig, Some loadError).

(** Nothing in the environment, a configuration file without entries. *)
Definition worldNoEntry : World := world ∅ (Some emptyConfig, None).

(** Nothing in the environment, a file that lists the server. *)
Definition worldFile : World := world ∅ (Some fileConfig, None).

(** Nothing in the environment, a helper that cannot be run. *)
Definition worldHelperFails : World := world ∅ (Some helperConfig, None).

(** A backend that must not be reached. *)
Definition unreachable : authBackend := fun _ => panic "unreachable".

End Samples.

(** ** Vocabulary of the further properties *)

(** The byte [c] occurs in [s]. *)
Fixpoint occurs (c : ascii) (s : string) : bool :=
  match s with
  | EmptyString => false
  | String c' s' => if decide (c' = c) then true else occurs c s'
  end.

(** Kinds of events, to count the calls that leave the process. *)
Definition isLoad (e : event) : bool :=
  match e with Load _ => true | _ => false end.

Definition isStoreGet (e : event) : bool :=
  match e with StoreGet _ _ => true | _ => false end.

Definition isEncode (e : event) : bool :=
  match e with EncodeAuthToBase64 _ => true | _ => false end.

Definition calls (kind : event -> bool) (events : trace) : nat :=
  length (List.filter kind events).

Module MoreSamples.

(** A credential that holds an identity token and no user name. *)
Definition tokenOnly : types.AuthConfig :=
  types.mkAuthConfig "" "" "" "" "" "eyJhbGciOi" "".

(** A stand-in for a helper that answers with a credential and an error
    at once. *)
Definition getStale (store : credentials.Store) (server : string)
  : types.AuthConfig * option error :=
  (tokenOnly, Some "credentials may be out of date").

(** Nothing in the environment, a helper that answers with both. *)
Definition worldStale : World :=
  mkWorld ∅ Samples.parse (fun _ => (Some Samples.helperConfig, None))
    getStale Samples.encode.

(** A stand-in for the loader that finds a file under [/root/.docker]
    only. *)
Definition loadUnder (configDir : string)
  : option configfile.ConfigFile * option error :=
  if decide (configDir = "/root/.docker") then (Some Samples.fileConfig, None)
  else (Some Samples.emptyConfig, Some Samples.loadError).

(** DOCKER_CONFIG points to that directory. *)
Definition worldDir : World :=
  mkWorld {[ "DOCKER_CONFIG" := "/root/.docker" ]} Samples.parse loadUnder
    Samples.get Samples.encode.

(** The credentials of [Samples.envAlice] beside DOCKER_CONFIG, with a
    loader that finds the file. *)
Definition worldEnvDir : World :=
  mkWorld (<[ "DOCKER_CONFIG" := "/root/.docker" ]> Samples.envAlice)
    Samples.parse loadUnder Samples.get Samples.encode.

(** DOCKER_CONFIG is not set, with the same loader. *)
Definition worldNoDir : World :=
  mkWorld ∅ Samples.parse loadUnder Samples.get Samples.encode.

(** The user without the password in the environment, a file that lists
    the server. *)
Definition worldUserOnly : World :=
  Samples.world Samples.envUserOnly (Some Samples.fileConfig, None).

(** A backend that is absent and one that finds [Samples.alice]. *)
Definition absent : authBackend := fun _ => ret (None, None).

Definition found : authBackend := fun _ => ret (Some Samples.alice, None).

End MoreSamples.

(** ** Running the backends *)

Ltac run :=
  unfold os_Getenv, cliconfig_Load_call, Store_Get,
    command_EncodeAuthToBase64_call, log_Errorf, log_Debugf, log_Debug,
    deref, index, bind, emit, ret, panic; simpl.

Lemma strings_Split_cons (s : string) (sep : ascii) :
  ∃ part parts, strings_Split s sep = part :: parts.
Proof.
  induction s as [|c s IH]; simpl.
  - by eexists _, _.
  - destruct IH as (p & ps & ->). case_decide; by eexists _, _.
Qed.

Example strings_Split_path :
  strings_Split "registry.example.com/team/app" "/"%char
  = ["registry.example.com"; "team"; "app"].
Proof. reflexivity. Qed.

Example strings_Split_no_separator :
  strings_Split "nginx" "/"%char = ["nginx"].
Proof. reflexivity. Qed.

Example strings_Split_edges :
  strings_Split "" "/"%char = [""]
  ∧ strings_Split "/a" "/"%char = [""; "a"]
  ∧ strings_Split "a//b/" "/"%char = ["a"; ""; "b"; ""].
Proof. repeat split. Qed.

(** [ParseServerAddress] returns, touches nothing outside, and hands back
    the error of [reference.Parse]. *)
Lemma ParseServerAddress_eq (w : World) (ref : string) (t : trace) :
  ParseServerAddress w ref t
  = (Ret (serverOf w ref, (reference_Parse w ref).2), t).
Proof.
  unfold ParseServerAddress, serverOf.
  destruct (reference_Parse w ref) as [[repository tag] [e|]]; simpl.
  - reflexivity.
  - destruct (strings_Split_cons repository "/"%char) as (p & ps & ->).
    reflexivity.
Qed.

Lemma authFromEnv_eq (w : World) (ref : string) (t : trace) :
  authFromEnv w ref t
  = (Ret (if decide (envSet w) then (Some (envAuth w), None) else (None, None)),
     t ++ envEvents).
Proof.
  unfold authFromEnv, envSet, envAuth, envEvents. run.
  rewrite <- app_assoc. simpl. by case_decide.
Qed.

Lemma authFromEnv_set (w : World) (ref : string) (t : trace) :
  envSet w ->
  authFromEnv w ref t = (Ret (Some (envAuth w), None), t ++ envEvents).
Proof. intros H. rewrite authFromEnv_eq. by rewrite decide_True. Qed.

Lemma authFromEnv_unset (w : World) (ref : string) (t : trace) :
  ¬ envSet w ->
  authFromEnv w ref t = (Ret (None, None), t ++ envEvents).
Proof. intros H. rewrite authFromEnv_eq. by rewrite decide_False. Qed.

Lemma not_envSet (w : World) :
  getenv w "REPO_USER" = "" ∨ getenv w "REPO_PASS" = "" -> ¬ envSet w.
Proof. unfold envSet. intros [H|H] [H1 H2]; congruence. Qed.

(** The three ways through [authFromDockerConfig]. *)
Lemma authFromDockerConfig_load_error (w : World) (ref : string) (t : trace)
    (file : option configfile.ConfigFile) (e : error) :
  cliconfig_Load w (configDirOf w) = (file, Some e) ->
  authFromDockerConfig w ref t
  = (Ret (None, Some e),
     t ++ loadEvents w
       ++ [Errorf "Unable to find default config file %s" (Some e)]).
Proof.
  intros Hload. unfold authFromDockerConfig, bind at 1.
  rewrite ParseServerAddress_eq. run.
  fold (configDirOf w). rewrite Hload. simpl.
  by rewrite <- !app_assoc.
Qed.

Lemma authFromDockerConfig_nil_file (w : World) (ref : string) (t : trace) :
  cliconfig_Load w (configDirOf w) = (None, None) ->
  authFromDockerConfig w ref t
  = (Panic "invalid memory address or nil pointer dereference",
     t ++ loadEvents w).
Proof.
  intros Hload. unfold authFromDockerConfig, bind at 1.
  rewrite ParseServerAddress_eq. run.
  fold (configDirOf w). rewrite Hload. simpl.
  by rewrite <- !app_assoc.
Qed.

Lemma authFromDockerConfig_loaded (w : World) (ref : string) (t : trace)
    (file : configfile.ConfigFile) :
  cliconfig_Load w (configDirOf w) = (Some file, None) ->
  let server := serverOf w ref in
  let store := CredentialsStore file server in
  authFromDockerConfig w ref t
  = (Ret (nonzeroAuth (store_Get w store server).1),
     t ++ loadEvents w ++ [StoreGet store server]).
Proof.
  intros Hload. unfold authFromDockerConfig, bind at 1.
  rewrite ParseServerAddress_eq. run.
  fold (configDirOf w). rewrite Hload. simpl.
  destruct (store_Get w _ _) as [auth e]. simpl.
  unfold nonzeroAuth. rewrite <- !app_assoc. simpl. by case_decide.
Qed.

(** ** The chain of backends *)

(** One turn of the loop of [firstValidAuth]. *)
Lemma firstValidAuth_cons (repo : string) (b : authBackend)
    (rest : list authBackend) (t : trace) :
  firstValidAuth repo (b :: rest) t
  = match b repo t with
    | (Ret (auth, err), t') =>
        if nonnil auth || nonnil err then (Ret (auth, err), t')
        else firstValidAuth repo rest t'
    | (Panic msg, t') => (Panic msg, t')
    end.
Proof.
  simpl. unfold bind.
  destruct (b repo t) as [[[auth err]|msg] t']; [|reflexivity].
  by destruct (nonnil auth || nonnil err).
Qed.

Lemma nonnil_or {A B : Type} (a : option A) (b : option B) :
  a ≠ None ∨ b ≠ None -> nonnil a || nonnil b = true.
Proof. destruct a, b; simpl; intros [H|H]; congruence. Qed.

Lemma firstValidAuth_skip (repo : string) (pre rest : list authBackend)
    (t t1 : trace) :
  all_absent repo pre t t1 ->
  firstValidAuth repo (pre ++ rest) t = firstValidAuth repo rest t1.
Proof.
  induction 1 as [t|b bs t t1 t2 Hb _ IH]; [reflexivity|].
  rewrite <- app_comm_cons, firstValidAuth_cons, Hb. simpl. exact IH.
Qed.

Lemma firstValidAuth_singleton (repo : string) (b : authBackend) (t : trace) :
  firstValidAuth repo [b] t = b repo t.
Proof.
  rewrite firstValidAuth_cons.
  by destruct (b repo t) as [[[[auth|] [err|]]|msg] t'].
Qed.

(** The chain of [EncodedAuth], by the state of the environment. *)
Lemma chain_env_set (w : World) (ref : string) (t : trace) :
  envSet w ->
  firstValidAuth ref [authFromEnv w; authFromDockerConfig w] t
  = (Ret (Some (envAuth w), None), t ++ envEvents).
Proof. intros H. by rewrite firstValidAuth_cons, authFromEnv_set. Qed.

Lemma chain_env_unset (w : World) (ref : string) (t : trace) :
  ¬ envSet w ->
  firstValidAuth ref [authFromEnv w; authFromDockerConfig w] t
  = authFromDockerConfig w ref (t ++ envEvents).
Proof.
  intros H. rewrite firstValidAuth_cons, authFromEnv_unset by done.
  apply firstValidAuth_singleton.
Qed.

(** C5. For every repository and every list of backends: when the
    backends of a prefix all return (nil, nil), [firstValidAuth] on that
    prefix returns (nil, nil); and when the next backend returns a
    credential or an error, [firstValidAuth] returns exactly that result
    and the trace that this backend left, whatever backends follow, so
    that none of them is called and one result is produced. *)
Theorem firstValidAuth_first_definitive (repo : string)
    (pre : list authBackend) (t t1 : trace) :
  all_absent repo pre t t1 ->
  firstValidAuth repo pre t = (Ret (None, None), t1)
  ∧ ∀ (b : authBackend) (post : list authBackend)
      (auth : option types.AuthConfig) (err : option error) (t2 : trace),
      b repo t1 = (Ret (auth, err), t2) ->
      auth ≠ None ∨ err ≠ None ->
      firstValidAuth repo (pre ++ b :: post) t = (Ret (auth, err), t2).
Proof.
  intros Hpre. split.
  - rewrite <- (app_nil_r pre). by rewrite (firstValidAuth_skip _ _ _ _ _ Hpre).
  - intros b post auth err t2 Hb Hdef.
    rewrite (firstValidAuth_skip _ _ _ _ _ Hpre), firstValidAuth_cons, Hb.
    by rewrite nonnil_or.
Qed.

(** At a chain of three: the environment backend is absent, the
    configuration backend fails to load, the third is not reached. *)
Lemma firstValidAuth_first_definitive_witness :
  all_absent "registry.example.com/app" [authFromEnv Samples.worldLoadFails]
    [] envEvents
  ∧ firstValidAuth "registry.example.com/app"
      ([authFromEnv Samples.worldLoadFails]
         ++ authFromDockerConfig Samples.worldLoadFails
         :: [Samples.unreachable]) []
    = (Ret (None, Some Samples.loadError),
       [Getenv "REPO_USER"; Getenv "REPO_PASS"; Getenv "DOCKER_CONFIG";
        Load "/";
        Errorf "Unable to find default config file %s"
          (Some Samples.loadError)]).
Proof.
  assert (H : all_absent "registry.example.com/app"
                [authFromEnv Samples.worldLoadFails] [] envEvents).
  { eapply all_absent_cons; [vm_compute; reflexivity | apply all_absent_nil]. }
  split; [exact H|].
  apply (proj2 (firstValidAuth_first_definitive _ _ _ _ H)).
  - vm_compute. reflexivity.
  - right. discriminate.
Defined.

(** ** The environment backend *)

(** C6. For every reference: when REPO_USER and REPO_PASS are both set
    and not empty, the chain of [EncodedAuth] returns the credential made
    of these two values with a nil error, and the trace holds the two
    reads of the environment only, so the configuration backend was not
    called; when one of them is unset or empty, the environment backend
    returns (nil, nil); and the environment backend returns a nil error
    in every world. *)
Theorem env_credentials_first (w : World) (ref : string) (t : trace) :
  (getenv w "REPO_USER" ≠ "" -> getenv w "REPO_PASS" ≠ "" ->
   firstValidAuth ref [authFromEnv w; authFromDockerConfig w] t
   = (Ret (Some (types.mkAuthConfig (getenv w "REPO_USER")
                   (getenv w "REPO_PASS") "" "" "" "" ""), None),
      t ++ [Getenv "REPO_USER"; Getenv "REPO_PASS"]))
  ∧ (getenv w "REPO_USER" = "" ∨ getenv w "REPO_PASS" = "" ->
     authFromEnv w ref t
     = (Ret (None, None), t ++ [Getenv "REPO_USER"; Getenv "REPO_PASS"]))
  ∧ (∃ auth, authFromEnv w ref t
             = (Ret (auth, None), t ++ [Getenv "REPO_USER"; Getenv "REPO_PASS"])).
Proof.
  split; [|split].
  - intros Hu Hp. by rewrite chain_env_set by (by split).
  - intros H. by rewrite authFromEnv_unset by (by apply not_envSet).
  - rewrite authFromEnv_eq. case_decide; by eexists.
Qed.

(** With a and b in the environment; and with the user only. *)
Lemma env_credentials_first_witness :
  firstValidAuth "registry.example.com/app"
    [authFromEnv Samples.worldEnv; authFromDockerConfig Samples.worldEnv] []
  = (Ret (Some Samples.alice, None), [Getenv "REPO_USER"; Getenv "REPO_PASS"])
  ∧ authFromEnv (Samples.world Samples.envUserOnly (None, None))
      "registry.example.com/app" []
    = (Ret (None, None), [Getenv "REPO_USER"; Getenv "REPO_PASS"]).
Proof.
  split.
  - apply (proj1 (env_credentials_first Samples.worldEnv
                    "registry.example.com/app" [])); vm_compute; discriminate.
  - apply (proj1 (proj2 (env_credentials_first
                           (Samples.world Samples.envUserOnly (None, None))
                           "registry.example.com/app" []))).
    right. vm_compute. reflexivity.
Defined.

(** C10. The result of the environment backend depends on the values of
    REPO_USER and REPO_PASS only: in any two worlds that agree on these
    two values, whatever else differs between them (other variables, the
    configuration, the stores), and for any two references, the
    environment backend returns the same result and leaves the same
    trace. *)
Theorem authFromEnv_ref_independent (w1 w2 : World) (ref1 ref2 : string)
    (t : trace) :
  getenv w1 "REPO_USER" = getenv w2 "REPO_USER" ->
  getenv w1 "REPO_PASS" = getenv w2 "REPO_PASS" ->
  authFromEnv w1 ref1 t = authFromEnv w2 ref2 t.
Proof.
  intros Hu Hp. rewrite !authFromEnv_eq. unfold envSet, envAuth.
  rewrite Hu, Hp. reflexivity.
Qed.

(** Two worlds with a and b in the two variables that differ in
    DOCKER_CONFIG and in the loader, and two references. *)
Lemma authFromEnv_ref_independent_witness :
  authFromEnv Samples.worldEnv "registry.example.com/app" []
  = authFromEnv MoreSamples.worldEnvDir "docker.io/library/nginx" [].
Proof.
  apply (authFromEnv_ref_independent Samples.worldEnv MoreSamples.worldEnvDir
           "registry.example.com/app" "docker.io/library/nginx" []);
    vm_compute; reflexivity.
Defined.

(** ** The configuration backend *)

(** C7. For every reference: when [cliconfig.Load] returns an error, the
    configuration backend returns a nil credential and that error; and
    when the environment backend is absent (one of the two variables
    unset or empty), the chain of [EncodedAuth] returns a nil credential
    and that same error. *)
Theorem load_error_not_masked (w : World) (ref : string) (t : trace)
    (file : option configfile.ConfigFile) (e : error) :
  cliconfig_Load w (configDirOf w) = (file, Some e) ->
  authFromDockerConfig w ref t
  = (Ret (None, Some e),
     t ++ [Getenv "DOCKER_CONFIG"; Load (configDirOf w);
           Errorf "Unable to find default config file %s" (Some e)])
  ∧ (getenv w "REPO_USER" = "" ∨ getenv w "REPO_PASS" = "" ->
     firstValidAuth ref [authFromEnv w; authFromDockerConfig w] t
     = (Ret (None, Some e),
        t ++ [Getenv "REPO_USER"; Getenv "REPO_PASS"; Getenv "DOCKER_CONFIG";
              Load (configDirOf w);
              Errorf "Unable to find default config file %s" (Some e)])).
Proof.
  intros Hload. split.
  - by rewrite (authFromDockerConfig_load_error _ _ _ _ _ Hload).
  - intros Henv. rewrite chain_env_unset by (by apply not_envSet).
    rewrite (authFromDockerConfig_load_error _ _ _ _ _ Hload).
    by rewrite <- !app_assoc.
Qed.

Lemma load_error_not_masked_witness :
  firstValidAuth "registry.example.com/app"
    [authFromEnv Samples.worldLoadFails;
     authFromDockerConfig Samples.worldLoadFails] []
  = (Ret (None, Some Samples.loadError),
     [Getenv "REPO_USER"; Getenv "REPO_PASS"; Getenv "DOCKER_CONFIG";
      Load "/";
      Errorf "Unable to find default config file %s" (Some Samples.loadError)]).
Proof.
  apply (proj2 (load_error_not_masked Samples.worldLoadFails
                  "registry.example.com/app" [] (Some Samples.emptyConfig)
                  Samples.loadError eq_refl)).
  left. vm_compute. reflexivity.
Defined.

(** C8. For every reference: when the configuration file loads and the
    selected store returns the zero credential for the derived server
    (with an error or without), the configuration backend returns
    (nil, nil); and when moreover one of REPO_USER and REPO_PASS is unset
    or empty, the chain of [EncodedAuth] returns (nil, nil). *)
Theorem zero_credential_is_absent (w : World) (ref : string) (t : trace)
    (file : configfile.ConfigFile) (e : option error) :
  cliconfig_Load w (configDirOf w) = (Some file, None) ->
  store_Get w (CredentialsStore file (serverOf w ref)) (serverOf w ref)
  = (types.zero, e) ->
  authFromDockerConfig w ref t
  = (Ret (None, None),
     t ++ [Getenv "DOCKER_CONFIG"; Load (configDirOf w);
           StoreGet (CredentialsStore file (serverOf w ref)) (serverOf w ref)])
  ∧ (getenv w "REPO_USER" = "" ∨ getenv w "REPO_PASS" = "" ->
     firstValidAuth ref [authFromEnv w; authFromDockerConfig w] t
     = (Ret (None, None),
        t ++ [Getenv "REPO_USER"; Getenv "REPO_PASS"; Getenv "DOCKER_CONFIG";
              Load (configDirOf w);
              StoreGet (CredentialsStore file (serverOf w ref))
                (serverOf w ref)])).
Proof.
  intros Hload Hget.
  assert (Hcfg : ∀ t0, authFromDockerConfig w ref t0
                       = (Ret (None, None),
                          t0 ++ loadEvents w
                             ++ [StoreGet (CredentialsStore file (serverOf w ref))
                                   (serverOf w ref)])).
  { intros t0. rewrite (authFromDockerConfig_loaded _ _ _ _ Hload).
    simpl. by rewrite Hget. }
  split.
  - by rewrite Hcfg.
  - intros Henv. rewrite chain_env_unset by (by apply not_envSet).
    rewrite Hcfg. by rewrite <- !app_assoc.
Qed.

Lemma zero_credential_is_absent_witness :
  firstValidAuth "registry.example.com/app"
    [authFromEnv Samples.worldNoEntry;
     authFromDockerConfig Samples.worldNoEntry] []
  = (Ret (None, None),
     [Getenv "REPO_USER"; Getenv "REPO_PASS"; Getenv "DOCKER_CONFIG";
      Load "/";
      StoreGet (credentials.FileStore Samples.emptyConfig)
        "registry.example.com"]).
Proof.
  apply (proj2 (zero_credential_is_absent Samples.worldNoEntry
                  "registry.example.com/app" [] Samples.emptyConfig None
                  eq_refl eq_refl)).
  left. vm_compute. reflexivity.
Defined.

(** C4. For every reference that [reference.Parse] rejects:
    [ParseServerAddress] returns the raw reference together with the
    error of the parse; and [authFromDockerConfig] goes on with the raw
    reference as the server, both to select the store and as the key of
    the lookup. *)
Theorem parse_failure_fallback (w : World) (ref : string) (t : trace)
    (repository tag : string) (e : error) :
  reference_Parse w ref = (repository, tag, Some e) ->
  ParseServerAddress w ref t = (Ret (ref, Some e), t)
  ∧ ∀ file : configfile.ConfigFile,
      cliconfig_Load w (configDirOf w) = (Some file, None) ->
      authFromDockerConfig w ref t
      = (Ret (nonzeroAuth (store_Get w (CredentialsStore file ref) ref).1),
         t ++ [Getenv "DOCKER_CONFIG"; Load (configDirOf w);
               StoreGet (CredentialsStore file ref) ref]).
Proof.
  intros Hparse.
  assert (Hserver : serverOf w ref = ref) by (unfold serverOf; by rewrite Hparse).
  split.
  - by rewrite ParseServerAddress_eq, Hserver, Hparse.
  - intros file Hload.
    rewrite (authFromDockerConfig_loaded _ _ _ _ Hload). simpl.
    by rewrite Hserver.
Qed.

(** The empty reference, with a file that has no entry for it. *)
Lemma parse_failure_fallback_witness :
  ParseServerAddress Samples.worldNoEntry "" []
  = (Ret ("", Some "repository name must have at least one component"), [])
  ∧ authFromDockerConfig Samples.worldNoEntry "" []
    = (Ret (None, None),
       [Getenv "DOCKER_CONFIG"; Load "/";
        StoreGet (credentials.FileStore Samples.emptyConfig) ""]).
Proof.
  pose proof (parse_failure_fallback Samples.worldNoEntry "" [] "" ""
                "repository name must have at least one component" eq_refl)
    as [Hp Hc].
  split; [exact Hp|]. exact (Hc Samples.emptyConfig eq_refl).
Defined.

(** C9. For every configuration file and server, [CredentialsStore] is a
    function of the two, and: a global CredentialsStore that is not empty
    gives the native store of that name, whatever the helpers say; else
    an entry for the server in CredentialHelpers gives the native store
    of that helper; else the file store. *)
Theorem CredentialsStore_priority (file : configfile.ConfigFile)
    (server : string) :
  (configfile.CredentialsStore file ≠ "" ->
   CredentialsStore file server
   = credentials.NativeStore file (configfile.CredentialsStore file))
  ∧ (configfile.CredentialsStore file = "" ->
     ∀ helper : string,
       configfile.CredentialHelpers file !! server = Some helper ->
       CredentialsStore file server = credentials.NativeStore file helper)
  ∧ (configfile.CredentialsStore file = "" ->
     configfile.CredentialHelpers file !! server = None ->
     CredentialsStore file server = credentials.FileStore file).
Proof.
  unfold CredentialsStore. repeat split.
  - intros H. by rewrite decide_True.
  - intros H helper Hh. rewrite decide_False by (by intros []). by rewrite Hh.
  - intros H Hh. rewrite decide_False by (by intros []). by rewrite Hh.
Qed.

Lemma CredentialsStore_priority_witness :
  CredentialsStore Samples.helperConfig "registry.example.com"
  = credentials.NativeStore Samples.helperConfig "osxkeychain"
  ∧ CredentialsStore Samples.perServerConfig "registry.example.com"
    = credentials.NativeStore Samples.perServerConfig "pass"
  ∧ CredentialsStore Samples.perServerConfig "docker.io"
    = credentials.FileStore Samples.perServerConfig.
Proof.
  split; [|split].
  - apply (proj1 (CredentialsStore_priority Samples.helperConfig
                    "registry.example.com")). vm_compute. discriminate.
  - apply (proj1 (proj2 (CredentialsStore_priority Samples.perServerConfig
                           "registry.example.com")) eq_refl).
    vm_compute. reflexivity.
  - apply (proj2 (proj2 (CredentialsStore_priority Samples.perServerConfig
                           "docker.io")) eq_refl).
    vm_compute. reflexivity.
Defined.

(** ** The encoder *)

(** What [EncodedAuth] does with the result of its chain: with a nil
    error it returns the empty string and never reaches the encoder. *)
Lemma EncodedAuth_nil_error (w : World) (ref : string) (t t' : trace)
    (auth : option types.AuthConfig) :
  firstValidAuth ref [authFromEnv w; authFromDockerConfig w] t
  = (Ret (auth, None), t') ->
  EncodedAuth w ref t = (Ret ("", None), t').
Proof. intros H. unfold EncodedAuth, bind. rewrite H. reflexivity. Qed.

(** With an error and a nil credential it dereferences the nil pointer. *)
Lemma EncodedAuth_error (w : World) (ref : string) (t t' : trace) (e : error) :
  firstValidAuth ref [authFromEnv w; authFromDockerConfig w] t
  = (Ret (None, Some e), t') ->
  EncodedAuth w ref t
  = (Panic "invalid memory address or nil pointer dereference",
     t' ++ [Debugf "Loaded auth credentials %s for %s" None ref]).
Proof. intros H. unfold EncodedAuth, bind at 1. rewrite H. reflexivity. Qed.

(** The configuration backend returns a nil error whenever the file
    loads, whatever the store returned. *)
Lemma authFromDockerConfig_loaded_nil_error (w : World) (ref : string)
    (t t' : trace) (file : configfile.ConfigFile)
    (auth : option types.AuthConfig) (err : option error) :
  cliconfig_Load w (configDirOf w) = (Some file, None) ->
  authFromDockerConfig w ref t = (Ret (auth, err), t') ->
  err = None.
Proof.
  intros Hload. rewrite (authFromDockerConfig_loaded _ _ _ _ Hload). simpl.
  unfold nonzeroAuth. case_decide; congruence.
Qed.

(** A panic of a backend goes through [EncodedAuth]. *)
Lemma EncodedAuth_panic (w : World) (ref : string) (t t' : trace)
    (msg : string) :
  firstValidAuth ref [authFromEnv w; authFromDockerConfig w] t
  = (Panic msg, t') ->
  EncodedAuth w ref t = (Panic msg, t').
Proof. intros H. unfold EncodedAuth, bind. rewrite H. reflexivity. Qed.

Lemma nonzeroAuth_nil_error (auth : types.AuthConfig) :
  ∃ p : option types.AuthConfig, nonzeroAuth auth = (p, None).
Proof. unfold nonzeroAuth. case_decide; by eexists. Qed.

(** In every world [EncodedAuth] either returns the empty string with a
    nil error or panics: the encoder is reached with a nil pointer only. *)
Lemma EncodedAuth_empty_or_panic (w : World) (ref : string) (t : trace) :
  ∃ t' : trace,
    EncodedAuth w ref t = (Ret ("", None), t')
    ∨ ∃ msg : string, EncodedAuth w ref t = (Panic msg, t').
Proof.
  destruct (decide (envSet w)) as [Hset|Hunset].
  - eexists. left. eapply EncodedAuth_nil_error. by apply chain_env_set.
  - pose proof (chain_env_unset w ref t Hunset) as Hchain.
    destruct (cliconfig_Load w (configDirOf w)) as [[file|] [e|]] eqn:Hload.
    + rewrite (authFromDockerConfig_load_error _ _ _ _ _ Hload) in Hchain.
      eexists. right. eexists. eapply EncodedAuth_error. exact Hchain.
    + rewrite (authFromDockerConfig_loaded _ _ _ _ Hload) in Hchain.
      simpl in Hchain.
      destruct (nonzeroAuth_nil_error
                  (store_Get w (CredentialsStore file (serverOf w ref))
                     (serverOf w ref)).1) as [p Hp].
      rewrite Hp in Hchain.
      eexists. left. eapply EncodedAuth_nil_error. exact Hchain.
    + rewrite (authFromDockerConfig_load_error _ _ _ _ _ Hload) in Hchain.
      eexists. right. eexists. eapply EncodedAuth_error. exact Hchain.
    + rewrite (authFromDockerConfig_nil_file _ _ _ Hload) in Hchain.
      eexists. right. eexists. eapply EncodedAuth_panic. exact Hchain.
Qed.

(** A credential found in the configuration file fares no better: the
    backend returns it, [EncodedAuth] returns the empty string. *)
Example EncodedAuth_file_credential :
  authFromDockerConfig Samples.worldFile "registry.example.com/app" []
  = (Ret (Some Samples.alice, None),
     [Getenv "DOCKER_CONFIG"; Load "/";
      StoreGet (credentials.FileStore Samples.fileConfig)
        "registry.example.com"])
  ∧ (EncodedAuth Samples.worldFile "registry.example.com/app" []).1
    = Ret ("", None).
Proof. split; vm_compute; reflexivity. Qed.

(** An absent file that the loader does not count as an error: no
    credential, no error, no panic. *)
Example EncodedAuth_no_entry :
  (EncodedAuth Samples.worldNoEntry "registry.example.com/app" []).1
  = Ret ("", None).
Proof. vm_compute. reflexivity. Qed.

(** C1, at the failing input. With a and b in REPO_USER and REPO_PASS the
    chain yields that credential and a nil error, and the encoder would
    give its payload; [EncodedAuth] returns the empty string and a nil
    error, and the encoder is not called. *)
Theorem EncodedAuth_loses_credential :
  firstValidAuth "registry.example.com/app"
    [authFromEnv Samples.worldEnv; authFromDockerConfig Samples.worldEnv] []
  = (Ret (Some Samples.alice, None), [Getenv "REPO_USER"; Getenv "REPO_PASS"])
  ∧ command_EncodeAuthToBase64 Samples.worldEnv Samples.alice
    = ("eyJ1c2VybmFtZSI6ImEiLCJwYXNzd29yZCI6ImIifQ==", None)
  ∧ EncodedAuth Samples.worldEnv "registry.example.com/app" []
    = (Ret ("", None), [Getenv "REPO_USER"; Getenv "REPO_PASS"]).
Proof. repeat split; vm_compute; reflexivity. Qed.

(** C2, at the failing input. With DOCKER_CONFIG, REPO_USER and REPO_PASS
    unset and a configuration file that [cliconfig.Load] cannot load, the
    chain returns a nil credential and the error of the load, and
    [EncodedAuth] panics on the nil credential. *)
Theorem EncodedAuth_panics_on_error :
  firstValidAuth "registry.example.com/app"
    [authFromEnv Samples.worldLoadFails;
     authFromDockerConfig Samples.worldLoadFails] []
  = (Ret (None, Some Samples.loadError),
     [Getenv "REPO_USER"; Getenv "REPO_PASS"; Getenv "DOCKER_CONFIG";
      Load "/";
      Errorf "Unable to find default config file %s" (Some Samples.loadError)])
  ∧ EncodedAuth Samples.worldLoadFails "registry.example.com/app" []
    = (Panic "invalid memory address or nil pointer dereference",
       [Getenv "REPO_USER"; Getenv "REPO_PASS"; Getenv "DOCKER_CONFIG";
        Load "/";
        Errorf "Unable to find default config file %s"
          (Some Samples.loadError);
        Debugf "Loaded auth credentials %s for %s" None
          "registry.example.com/app"]).
Proof. split; vm_compute; reflexivity. Qed.

(** C3, at the failing input. The file names the helper osxkeychain, the
    call of the helper fails, and the configuration backend returns
    (nil, nil): the error of [Get] does not reach the caller. *)
Theorem store_error_is_dropped :
  store_Get Samples.worldHelperFails
    (credentials.NativeStore Samples.helperConfig "osxkeychain")
    "registry.example.com"
  = (types.zero, Some "error getting credentials: helper not found")
  ∧ authFromDockerConfig Samples.worldHelperFails "registry.example.com/app" []
    = (Ret (None, None),
       [Getenv "DOCKER_CONFIG"; Load "/";
        StoreGet (credentials.NativeStore Samples.helperConfig "osxkeychain")
          "registry.example.com"]).
Proof. split; vm_compute; reflexivity. Qed.

(** * Further properties of the package *)

(** ** [ParseServerAddress] *)

Lemma strings_Split_head (s : string) (sep : ascii) :
  ∃ part parts,
    strings_Split s sep = part :: parts
    ∧ occurs sep part = false
    ∧ (s = part ∨ ∃ rest, s = part +:+ String sep rest).
Proof.
  induction s as [|c s IH]; simpl.
  - eexists _, _. repeat split. by left.
  - destruct IH as (p & ps & -> & Hp & Hs). case_decide as Hc.
    + subst c. eexists _, _. repeat split. right. by eexists.
    + eexists _, _. split; [reflexivity|]. split.
      * simpl. by rewrite decide_False.
      * destruct Hs as [->|[rest ->]]; [by left|right; by eexists].
Qed.

Lemma occurs_app (c : ascii) (s rest : string) :
  occurs c (s +:+ String c rest) = true.
Proof.
  induction s as [|c' s IH]; simpl.
  - by rewrite decide_True.
  - by case_decide.
Qed.

(** X1. [ParseServerAddress] returns for every reference, whatever
    [reference.Parse] answers: the index into the parts is always in
    range. It leaves the trace as it is, and its error is the error of
    [reference.Parse]. *)
Theorem ParseServerAddress_returns (w : World) (ref : string) (t : trace) :
  ∃ server : string,
    ParseServerAddress w ref t = (Ret (server, (reference_Parse w ref).2), t).
Proof. eexists. apply ParseServerAddress_eq. Qed.

(** X2. When [reference.Parse] accepts the reference, the server that
    [ParseServerAddress] returns holds no slash and is the repository up
    to its first slash: the whole repository when it has no slash. *)
Theorem ParseServerAddress_first_segment (w : World) (ref : string)
    (t : trace) (repository tag : string) :
  reference_Parse w ref = (repository, tag, None) ->
  ∃ server : string,
    ParseServerAddress w ref t = (Ret (server, None), t)
    ∧ occurs "/" server = false
    ∧ (repository = server ∨ ∃ rest, repository = server +:+ String "/" rest)
    ∧ (occurs "/" repository = false -> server = repository).
Proof.
  intros Hparse. rewrite ParseServerAddress_eq, Hparse. simpl.
  unfold serverOf. rewrite Hparse.
  destruct (strings_Split_head repository "/") as (p & ps & -> & Hp & Hs).
  exists p. repeat split; try done.
  intros Hno. destruct Hs as [->|[rest ->]]; [done|].
  by rewrite occurs_app in Hno.
Qed.

Lemma ParseServerAddress_first_segment_witness :
  ∃ server : string,
    ParseServerAddress Samples.worldNoEntry "registry.example.com/team/app" []
    = (Ret (server, None), [])
    ∧ occurs "/" server = false
    ∧ ("registry.example.com/team/app" = server
       ∨ ∃ rest, "registry.example.com/team/app" = server +:+ String "/" rest)
    ∧ (occurs "/" "registry.example.com/team/app" = false ->
       server = "registry.example.com/team/app").
Proof.
  apply (ParseServerAddress_first_segment Samples.worldNoEntry
           "registry.example.com/team/app" []
           "registry.example.com/team/app" "").
  vm_compute. reflexivity.
Defined.

(** ** [firstValidAuth] on any list of backends *)

(** X3. [firstValidAuth] on two lists put end to end runs the first
    list, and goes on to the second, from the trace the first left, only
    when the first returned (nil, nil); a credential, an error or a panic
    of the first list is the result of the whole. *)
Theorem firstValidAuth_app (repo : string) (xs ys : list authBackend)
    (t : trace) :
  firstValidAuth repo (xs ++ ys) t
  = match firstValidAuth repo xs t with
    | (Ret (None, None), t') => firstValidAuth repo ys t'
    | r => r
    end.
Proof.
  revert t. induction xs as [|b xs IH]; intros t; [reflexivity|].
  rewrite <- app_comm_cons, !firstValidAuth_cons.
  destruct (b repo t) as [[[[auth|] [err|]]|msg] t1]; simpl; try reflexivity.
  apply IH.
Qed.

(** X4. Whatever [firstValidAuth] returns was returned by a backend of
    the list: a result of (nil, nil) means that every backend returned
    (nil, nil); any other result is the result of one backend, called
    after the backends before it had all returned (nil, nil), and the
    trace is the one that this backend left. *)
Theorem firstValidAuth_inv (repo : string) (backends : list authBackend)
    (t t' : trace) (auth : option types.AuthConfig) (err : option error) :
  firstValidAuth repo backends t = (Ret (auth, err), t') ->
  (auth = None ∧ err = None ∧ all_absent repo backends t t')
  ∨ ∃ (pre : list authBackend) (b : authBackend) (post : list authBackend)
      (t1 : trace),
      backends = pre ++ b :: post
      ∧ all_absent repo pre t t1
      ∧ b repo t1 = (Ret (auth, err), t')
      ∧ (auth ≠ None ∨ err ≠ None).
Proof.
  revert t. induction backends as [|b bs IH]; intros t.
  - simpl. unfold ret. intros [= <- <- <-]. left. repeat split. constructor.
  - rewrite firstValidAuth_cons.
    destruct (b repo t) as [[[a e]|msg] t1] eqn:Hb; [|discriminate].
    destruct (nonnil a || nonnil e) eqn:Hdef.
    + intros [= <- <- <-]. right. exists [], b, bs, t. repeat split; try done.
      * constructor.
      * destruct a, e; try discriminate; auto.
    + destruct a, e; try discriminate. intros Hrest.
      destruct (IH _ Hrest) as [(-> & -> & Habs)|(pre & b' & post & t2 & -> & Habs & Hb' & Hdef')].
      * left. repeat split. econstructor; eassumption.
      * right. exists (b :: pre), b', post, t2. repeat split; try done.
        econstructor; eassumption.
Qed.

Lemma firstValidAuth_inv_witness :
  ∃ (pre : list authBackend) (b : authBackend) (post : list authBackend)
    (t1 : trace),
    [MoreSamples.absent; MoreSamples.found; Samples.unreachable]
    = pre ++ b :: post
    ∧ all_absent "registry.example.com/app" pre [] t1
    ∧ b "registry.example.com/app" t1 = (Ret (Some Samples.alice, None), [])
    ∧ (Some Samples.alice ≠ None ∨ (None : option error) ≠ None).
Proof.
  destruct (firstValidAuth_inv "registry.example.com/app"
              [MoreSamples.absent; MoreSamples.found; Samples.unreachable]
              [] [] (Some Samples.alice) None eq_refl) as [(H & _)|H].
  - discriminate H.
  - exact H.
Defined.

(** ** The chain of [EncodedAuth] in any world *)

Lemma envAuth_nonzero (w : World) : envSet w -> envAuth w ≠ types.zero.
Proof. intros [Hu _] [= H _]. by apply Hu. Qed.

Lemma nonzeroAuth_inv (auth : types.AuthConfig)
    (p : option types.AuthConfig) (err : option error) :
  nonzeroAuth auth = (p, err) ->
  err = None ∧ ∀ a, p = Some a -> a = auth ∧ a ≠ types.zero.
Proof.
  unfold nonzeroAuth. case_decide as Hz; intros [= <- <-]; split; try done.
  by intros a [= <-].
Qed.

(** X5. The only error that the chain of [EncodedAuth] returns is the
    error of [cliconfig.Load]: an error comes with a nil credential, with
    one of REPO_USER and REPO_PASS empty, and is the one that the load of
    the configuration returned; the errors of [reference.Parse] and of
    the store never reach the caller. *)
Theorem chain_error_is_load_error (w : World) (ref : string) (t t' : trace)
    (auth : option types.AuthConfig) (e : error) :
  firstValidAuth ref [authFromEnv w; authFromDockerConfig w] t
  = (Ret (auth, Some e), t') ->
  auth = None ∧ ¬ envSet w
  ∧ ∃ file, cliconfig_Load w (configDirOf w) = (file, Some e).
Proof.
  destruct (decide (envSet w)) as [Hset|Hunset].
  - by rewrite chain_env_set.
  - rewrite chain_env_unset by done.
    destruct (cliconfig_Load w (configDirOf w)) as [[file|] [e'|]] eqn:Hload.
    + rewrite (authFromDockerConfig_load_error _ _ _ _ _ Hload).
      intros [= <- <- <-]. repeat split; try done. by eexists.
    + rewrite (authFromDockerConfig_loaded _ _ _ _ Hload). simpl.
      intros [= H _]. by apply nonzeroAuth_inv in H as [? _].
    + rewrite (authFromDockerConfig_load_error _ _ _ _ _ Hload).
      intros [= <- <- <-]. repeat split; try done. by eexists.
    + by rewrite (authFromDockerConfig_nil_file _ _ _ Hload).
Qed.

Lemma chain_error_is_load_error_witness :
  (None : option types.AuthConfig) = None ∧ ¬ envSet Samples.worldLoadFails
  ∧ ∃ file, cliconfig_Load Samples.worldLoadFails
              (configDirOf Samples.worldLoadFails)
            = (file, Some Samples.loadError).
Proof.
  apply (chain_error_is_load_error Samples.worldLoadFails
           "registry.example.com/app" []
           [Getenv "REPO_USER"; Getenv "REPO_PASS"; Getenv "DOCKER_CONFIG";
            Load "/";
            Errorf "Unable to find default config file %s"
              (Some Samples.loadError)]).
  vm_compute. reflexivity.
Defined.

(** X6. A credential that the chain of [EncodedAuth] returns comes with a
    nil error, is never the zero value, and is either the pair of
    REPO_USER and REPO_PASS, both not empty, or, with one of them empty,
    the answer of the store selected from the loaded file for the server
    of the reference. *)
Theorem chain_credential_origin (w : World) (ref : string) (t t' : trace)
    (a : types.AuthConfig) (err : option error) :
  firstValidAuth ref [authFromEnv w; authFromDockerConfig w] t
  = (Ret (Some a, err), t') ->
  err = None ∧ a ≠ types.zero
  ∧ ((envSet w ∧ a = envAuth w)
     ∨ (¬ envSet w
        ∧ ∃ file, cliconfig_Load w (configDirOf w) = (Some file, None)
                  ∧ (store_Get w (CredentialsStore file (serverOf w ref))
                       (serverOf w ref)).1 = a)).
Proof.
  destruct (decide (envSet w)) as [Hset|Hunset].
  - rewrite chain_env_set by done. intros [= <- <- <-].
    repeat split; [by apply envAuth_nonzero|]. by left.
  - rewrite chain_env_unset by done.
    destruct (cliconfig_Load w (configDirOf w)) as [[file|] [e'|]] eqn:Hload.
    + by rewrite (authFromDockerConfig_load_error _ _ _ _ _ Hload).
    + rewrite (authFromDockerConfig_loaded _ _ _ _ Hload). simpl.
      intros [= H _]. apply nonzeroAuth_inv in H as [-> H].
      destruct (H a eq_refl) as [-> Hnz]. repeat split; [done|].
      right. split; [done|]. by exists file.
    + by rewrite (authFromDockerConfig_load_error _ _ _ _ _ Hload).
    + by rewrite (authFromDockerConfig_nil_file _ _ _ Hload).
Qed.

Lemma chain_credential_origin_witness :
  (None : option error) = None ∧ Samples.alice ≠ types.zero
  ∧ ((envSet Samples.worldFile ∧ Samples.alice = envAuth Samples.worldFile)
     ∨ (¬ envSet Samples.worldFile
        ∧ ∃ file, cliconfig_Load Samples.worldFile
                    (configDirOf Samples.worldFile) = (Some file, None)
                  ∧ (store_Get Samples.worldFile
                       (CredentialsStore file
                          (serverOf Samples.worldFile "registry.example.com/app"))
                       (serverOf Samples.worldFile "registry.example.com/app")).1
                    = Samples.alice)).
Proof.
  apply (chain_credential_origin Samples.worldFile "registry.example.com/app"
           []
           [Getenv "REPO_USER"; Getenv "REPO_PASS"; Getenv "DOCKER_CONFIG";
            Load "/";
            StoreGet (credentials.FileStore Samples.fileConfig)
              "registry.example.com"]).
  vm_compute. reflexivity.
Defined.

(** X7. When one of REPO_USER and REPO_PASS is unset or empty, the other
    one is not used: the chain of [EncodedAuth] gives what the
    configuration backend gives after the two reads of the environment,
    be it a credential, nothing, an error or a panic. *)
Theorem partial_env_falls_through (w : World) (ref : string) (t : trace) :
  getenv w "REPO_USER" = "" ∨ getenv w "REPO_PASS" = "" ->
  firstValidAuth ref [authFromEnv w; authFromDockerConfig w] t
  = authFromDockerConfig w ref (t ++ [Getenv "REPO_USER"; Getenv "REPO_PASS"]).
Proof. intros H. by rewrite chain_env_unset by (by apply not_envSet). Qed.

Lemma partial_env_falls_through_witness :
  firstValidAuth "registry.example.com/app"
    [authFromEnv MoreSamples.worldUserOnly;
     authFromDockerConfig MoreSamples.worldUserOnly] []
  = (Ret (Some Samples.alice, None),
     [Getenv "REPO_USER"; Getenv "REPO_PASS"; Getenv "DOCKER_CONFIG";
      Load "/";
      StoreGet (credentials.FileStore Samples.fileConfig)
        "registry.example.com"]).
Proof.
  rewrite (partial_env_falls_through MoreSamples.worldUserOnly
             "registry.example.com/app" []).
  - vm_compute. reflexivity.
  - right. vm_compute. reflexivity.
Defined.

(** ** The configuration backend in any world *)

(** X8. The configuration backend first reads DOCKER_CONFIG and then
    loads the configuration, from the root directory when the variable
    is unset or empty and from the directory it names otherwise; it does
    so for every reference, accepted by [reference.Parse] or not. *)
Theorem config_directory (w : World) (ref : string) (t : trace) :
  (getenv w "DOCKER_CONFIG" = "" ->
   ∃ rest, (authFromDockerConfig w ref t).2
           = t ++ Getenv "DOCKER_CONFIG" :: Load "/" :: rest)
  ∧ (getenv w "DOCKER_CONFIG" ≠ "" ->
     ∃ rest, (authFromDockerConfig w ref t).2
             = t ++ Getenv "DOCKER_CONFIG"
                 :: Load (getenv w "DOCKER_CONFIG") :: rest).
Proof.
  assert (H : ∃ rest, (authFromDockerConfig w ref t).2
                      = t ++ Getenv "DOCKER_CONFIG" :: Load (configDirOf w)
                          :: rest).
  { destruct (cliconfig_Load w (configDirOf w)) as [[file|] [e|]] eqn:Hload.
    - rewrite (authFromDockerConfig_load_error _ _ _ _ _ Hload). by eexists.
    - rewrite (authFromDockerConfig_loaded _ _ _ _ Hload). by eexists.
    - rewrite (authFromDockerConfig_load_error _ _ _ _ _ Hload). by eexists.
    - rewrite (authFromDockerConfig_nil_file _ _ _ Hload). by exists []. }
  unfold configDirOf in H. split; intros Hdir.
  - by rewrite decide_True in H.
  - by rewrite decide_False in H.
Qed.

Lemma config_directory_witness :
  (∃ rest, (authFromDockerConfig MoreSamples.worldNoDir
              "registry.example.com/app" []).2
           = [] ++ Getenv "DOCKER_CONFIG" :: Load "/" :: rest)
  ∧ (∃ rest, (authFromDockerConfig MoreSamples.worldDir
                "registry.example.com/app" []).2
             = [] ++ Getenv "DOCKER_CONFIG"
                 :: Load (getenv MoreSamples.worldDir "DOCKER_CONFIG") :: rest).
Proof.
  split.
  - apply (proj1 (config_directory MoreSamples.worldNoDir
                    "registry.example.com/app" [])).
    vm_compute. reflexivity.
  - apply (proj2 (config_directory MoreSamples.worldDir
                    "registry.example.com/app" [])).
    vm_compute. discriminate.
Defined.

(** X9. When the configuration loads and the selected store answers with
    a credential that is not the zero value, the configuration backend
    returns that credential with a nil error, also when the store
    answered with an error beside it and also when the credential has no
    user name. *)
Theorem nonzero_credential_is_returned (w : World) (ref : string) (t : trace)
    (file : configfile.ConfigFile) (auth : types.AuthConfig)
    (e : option error) :
  cliconfig_Load w (configDirOf w) = (Some file, None) ->
  store_Get w (CredentialsStore file (serverOf w ref)) (serverOf w ref)
  = (auth, e) ->
  auth ≠ types.zero ->
  authFromDockerConfig w ref t
  = (Ret (Some auth, None),
     t ++ [Getenv "DOCKER_CONFIG"; Load (configDirOf w);
           StoreGet (CredentialsStore file (serverOf w ref)) (serverOf w ref)]).
Proof.
  intros Hload Hget Hnz.
  rewrite (authFromDockerConfig_loaded _ _ _ _ Hload). simpl.
  rewrite Hget. simpl. unfold nonzeroAuth. by rewrite decide_False.
Qed.

Lemma nonzero_credential_is_returned_witness :
  authFromDockerConfig MoreSamples.worldStale "registry.example.com/app" []
  = (Ret (Some MoreSamples.tokenOnly, None),
     [Getenv "DOCKER_CONFIG"; Load "/";
      StoreGet (credentials.NativeStore Samples.helperConfig "osxkeychain")
        "registry.example.com"]).
Proof.
  apply (nonzero_credential_is_returned MoreSamples.worldStale
           "registry.example.com/app" [] Samples.helperConfig
           MoreSamples.tokenOnly (Some "credentials may be out of date")
           eq_refl eq_refl).
  vm_compute. discriminate.
Defined.

(** ** The encoders in any world *)

(** [EncodeAuth] on a nil pointer panics without a call of the
    encoder; on a pointer to a credential it calls the encoder once and
    returns what the encoder returned, its error included. *)
Lemma EncodeAuth_nil_or_encoder (w : World) (t : trace) :
  EncodeAuth w None t
  = (Panic "invalid memory address or nil pointer dereference", t)
  ∧ ∀ auth : types.AuthConfig,
      EncodeAuth w (Some auth) t
      = (Ret (command_EncodeAuthToBase64 w auth),
         t ++ [EncodeAuthToBase64 auth]).
Proof. split; [reflexivity|]. intros auth. reflexivity. Qed.

(** X10. What [EncodedAuth] does is decided by the environment and the
    load alone: with REPO_USER and REPO_PASS both not empty, or with a
    configuration that loads, it returns the empty string and a nil
    error, whatever credential was found; with one of the variables
    empty and a configuration that does not load, it panics. *)
Theorem EncodedAuth_outcome (w : World) (ref : string) (t : trace) :
  (envSet w ∨ (∃ file, cliconfig_Load w (configDirOf w) = (Some file, None)) ->
   ∃ t', EncodedAuth w ref t = (Ret ("", None), t'))
  ∧ (¬ envSet w ->
     (∀ file, cliconfig_Load w (configDirOf w) ≠ (Some file, None)) ->
     ∃ msg t', EncodedAuth w ref t = (Panic msg, t')).
Proof.
  split.
  - intros Hok. destruct (decide (envSet w)) as [Hset|Hunset].
    + eexists. eapply EncodedAuth_nil_error. by apply chain_env_set.
    + destruct Hok as [Hset|[file Hload]]; [done|].
      pose proof (chain_env_unset w ref t Hunset) as Hchain.
      rewrite (authFromDockerConfig_loaded _ _ _ _ Hload) in Hchain.
      simpl in Hchain.
      destruct (nonzeroAuth_nil_error
                  (store_Get w (CredentialsStore file (serverOf w ref))
                     (serverOf w ref)).1) as [p Hp].
      rewrite Hp in Hchain. eexists. eapply EncodedAuth_nil_error. exact Hchain.
  - intros Hunset Hload.
    pose proof (chain_env_unset w ref t Hunset) as Hchain.
    destruct (cliconfig_Load w (configDirOf w)) as [[file|] [e|]] eqn:Hl.
    + rewrite (authFromDockerConfig_load_error _ _ _ _ _ Hl) in Hchain.
      eexists _, _. eapply EncodedAuth_error. exact Hchain.
    + by destruct (Hload file).
    + rewrite (authFromDockerConfig_load_error _ _ _ _ _ Hl) in Hchain.
      eexists _, _. eapply EncodedAuth_error. exact Hchain.
    + rewrite (authFromDockerConfig_nil_file _ _ _ Hl) in Hchain.
      eexists _, _. eapply EncodedAuth_panic. exact Hchain.
Qed.

Lemma EncodedAuth_outcome_witness :
  (∃ t', EncodedAuth Samples.worldFile "registry.example.com/app" []
         = (Ret ("", None), t'))
  ∧ (∃ msg t', EncodedAuth Samples.worldLoadFails "registry.example.com/app" []
               = (Panic msg, t')).
Proof.
  split.
  - apply (proj1 (EncodedAuth_outcome Samples.worldFile
                    "registry.example.com/app" [])).
    right. exists Samples.fileConfig. vm_compute. reflexivity.
  - apply (proj2 (EncodedAuth_outcome Samples.worldLoadFails
                    "registry.example.com/app" [])).
    + intros [H _]. vm_compute in H. by apply H.
    + intros file. vm_compute. discriminate.
Defined.

Ltac count_calls :=
  unfold calls, envEvents, loadEvents; simpl; repeat split; try lia;
  intros; try done.

(** X11. One call of [EncodedAuth] only adds to the trace, loads the
    configuration at most once, asks a credential store at most once and
    never calls the encoder; with REPO_USER and REPO_PASS both not empty
    it neither loads the configuration nor asks a store. *)
Theorem EncodedAuth_calls (w : World) (ref : string) (t : trace) :
  ∃ events : trace,
    (EncodedAuth w ref t).2 = t ++ events
    ∧ calls isLoad events ≤ 1
    ∧ calls isStoreGet events ≤ 1
    ∧ calls isEncode events = 0
    ∧ (envSet w -> calls isLoad events = 0 ∧ calls isStoreGet events = 0).
Proof.
  destruct (decide (envSet w)) as [Hset|Hunset].
  - exists envEvents. split.
    + by rewrite (EncodedAuth_nil_error _ _ _ _ _ (chain_env_set w ref t Hset)).
    + count_calls.
  - pose proof (chain_env_unset w ref t Hunset) as Hchain.
    destruct (cliconfig_Load w (configDirOf w)) as [[file|] [e|]] eqn:Hload.
    + rewrite (authFromDockerConfig_load_error _ _ _ _ _ Hload) in Hchain.
      rewrite (EncodedAuth_error _ _ _ _ _ Hchain). simpl.
      rewrite <- !app_assoc. eexists. split; [reflexivity|]. count_calls.
    + rewrite (authFromDockerConfig_loaded _ _ _ _ Hload) in Hchain.
      simpl in Hchain.
      destruct (nonzeroAuth_nil_error
                  (store_Get w (CredentialsStore file (serverOf w ref))
                     (serverOf w ref)).1) as [p Hp].
      rewrite Hp in Hchain.
      rewrite (EncodedAuth_nil_error _ _ _ _ _ Hchain). simpl.
      rewrite <- !app_assoc. eexists. split; [reflexivity|]. count_calls.
    + rewrite (authFromDockerConfig_load_error _ _ _ _ _ Hload) in Hchain.
      rewrite (EncodedAuth_error _ _ _ _ _ Hchain). simpl.
      rewrite <- !app_assoc. eexists. split; [reflexivity|]. count_calls.
    + rewrite (authFromDockerConfig_nil_file _ _ _ Hload) in Hchain.
      rewrite (EncodedAuth_panic _ _ _ _ _ Hchain). simpl.
      rewrite <- !app_assoc. eexists. split; [reflexivity|]. count_calls.
Qed.

(** X12. The configuration backend reads the reference through
    [ParseServerAddress] only: two references for which it returns the
    same server, with whatever errors, get the same result and leave the
    same trace. *)
Theorem same_server_same_result (w : World) (ref1 ref2 : string) (t : trace)
    (server : string) (err1 err2 : option error) :
  ParseServerAddress w ref1 t = (Ret (server, err1), t) ->
  ParseServerAddress w ref2 t = (Ret (server, err2), t) ->
  authFromDockerConfig w ref1 t = authFromDockerConfig w ref2 t.
Proof.
  intros H1 H2. unfold authFromDockerConfig, bind at 1. rewrite H1.
  symmetry. unfold bind at 1. rewrite H2. reflexivity.
Qed.

Lemma same_server_same_result_witness :
  authFromDockerConfig Samples.worldFile "registry.example.com/app" []
  = authFromDockerConfig Samples.worldFile "registry.example.com/team/db" [].
Proof.
  apply (same_server_same_result Samples.worldFile "registry.example.com/app"
           "registry.example.com/team/db" [] "registry.example.com" None None);
    vm_compute; reflexivity.
Defined.
